(** * Eternal Zoo model catalog: [eternal_zoo/models.py]

    The module consists of three module-level bindings:
    - [HASH_TO_MODEL], a dict literal from content-address hash to model name;
    - [MODEL_TO_HASH], the dict comprehension
      [{model: hash for hash, model in HASH_TO_MODEL.items()}];
    - [FEATURED_MODELS], a dict literal from model name to a metadata dict.

    Python dicts are embedded as association lists in insertion order with
    unique keys: assigning to a key that is already present keeps the key's
    position and replaces its value, assigning to a new key appends it.
    Dict literals and dict comprehensions are successive assignments into an
    initially empty dict. *)

From Stdlib Require Import String List Bool.
From Stdlib Require Import Arith Lia.
Import ListNotations.
Open Scope string_scope.
Open Scope list_scope.

(** ** Python dicts with string keys *)

Definition dict (V : Type) : Type := list (string * V).

Section DictOps.
Context {V : Type}.

(** [d.get(k)]: [None] when the key is absent. *)
Fixpoint dict_get (d : dict V) (k : string) : option V :=
  match d with
  | [] => None
  | (k', v) :: d' => if String.eqb k' k then Some v else dict_get d' k
  end.

(** [d[k] = v]. *)
Fixpoint dict_set (d : dict V) (k : string) (v : V) : dict V :=
  match d with
  | [] => [(k, v)]
  | (k', v') :: d' =>
      if String.eqb k' k then (k', v) :: d' else (k', v') :: dict_set d' k v
  end.

(** [{k1: v1, ..., kn: vn}] and [{k: v for ...}]: the pairs are assigned
    from left to right. *)
Definition dict_literal (kvs : list (string * V)) : dict V :=
  fold_left (fun d kv => dict_set d (fst kv) (snd kv)) kvs [].

(** [d.items()], [d.keys()], [d.values()]. *)
Definition dict_items (d : dict V) : list (string * V) := d.
Definition dict_keys (d : dict V) : list string := map fst d.
Definition dict_values (d : dict V) : list V := map snd d.

(** [k in d]. *)
Definition dict_contains (d : dict V) (k : string) : Prop :=
  In k (dict_keys d).

(** Every dict built by assignments has pairwise distinct keys. *)
Definition dict_wf (d : dict V) : Prop := NoDup (dict_keys d).
End DictOps.

(** Values stored in a metadata dict: string literals and [True]/[False]. *)
Inductive pyval : Type :=
| PStr (s : string)
| PBool (b : bool).

(** ** The module-level tables *)

Definition HASH_TO_MODEL : dict string :=
  dict_literal [
    ("bafkreiacd5mwy4a5wkdmvxsk42nsupes5uf4q3dm52k36mvbhgdrez422y",
     "qwen3-embedding-0.6b");
    ("bafkreia7nzedkxlr6tebfxvo552zq7cba6sncloxwyivfl3tpj7hl5dz5u",
     "qwen3-embedding-4b");
    ("bafkreib6pws5dx5ur6exbhulmf35twfcizdkxvup4cklzprlvaervfz5zy",
     "qwen3-1.7b");
    ("bafkreiekokvzioogj5hoxgxlorqvbw2ed3w4mwieium5old5jq3iubixza",
     "qwen3-4b");
    ("bafkreid5z4lddvv4qbgdlz2nqo6eumxwetwmkpesrumisx72k3ahq73zpy",
     "qwen3-8b");
    ("bafkreiclwlxc56ppozipczuwkmgnlrxrerrvaubc5uhvfs3g2hp3lftrwm",
     "qwen3-14b");
    ("bafkreihq4usl2t3i6pqoilvorp4up263yieuxcqs6xznlmrig365bvww5i",
     "qwen3-32b");
    ("bafkreieroiopteqmtbjadlnpq3qkakdu7omvtuavs2l2qbu46ijnfdo2ly",
     "qwen3-30b-a3b");
    ("bafkreie4uj3gluik5ob2ib3cm2pt6ww7n4vqpmjnq6pas4gkkor42yuysa",
     "qwen3-235b-a22b");
    ("bafkreib6thkvzddxkxtgkeslioreae66uef42gtxzy4wh7cyzf6fmlq3rm",
     "qwen3-coder-480b-a35b");
    ("bafkreiaevddz5ssjnbkmdrl6dzw5sugwirzi7wput7z2ttcwnvj2wiiw5q",
     "gemma-3-4b");
    ("bafkreic2bkjuu3fvdoxnvusdt4in6fa6lubzhtjtmcp2zvokvfjpyndakq",
     "gemma-3-12b");
    ("bafkreihi2cbsgja5dwa5nsuixicx2x3gbcnh7gsocxbmjxegtewoq2syve",
     "gemma-3-27b");
    ("bafkreihz3mz422vpoy7sccwj5tujkerxbjxdlmsqqf3ridxbe3m6ipnq5i",
     "gemma-3n-e4b");
    ("bafkreiaztifhss23cftya3bkorbsenzohol2oc3dvngo2srbbosko6gmme",
     "lfm2-1.2b");
    ("bafkreidrdplo7mcfhrvocaa26yge6kmxmuwrexm5rffnzo5lbe6fkhjuvq",
     "openreasoning-nemotron-32b");
    ("bafkreih4xgr5t7yc3yooz6i6usgpwhggaobspmgut4rnu42gi6cv77o4em",
     "devstral-small");
    ("bafkreibokz6tdke7k3eozsro3hh3luyqbub7tzdawpswtt7q6bzfg36fw4",
     "dolphin-3.0-llama3.1-8b");
    ("bafkreiclhnqcjfbbusqmg73jcwasomv7tqchkqm3fea5wwzs5vavc2wzfq",
     "gpt-oss-20b");
    ("bafkreia4xtrb4vfsf7lblomjwh7cc3nlpci3fsqyeqpgqqflx4cnhwa3za",
     "gpt-oss-120b");
    ("bafkreicyuuvaeavozddtpc3tajfejaxuvuw2cpfajtt6lsddo22gcqg2km",
     "hermes-4-70b");
    ("bafkreiaha3sjfmv4affmi5kbu6bnayenf2avwafp3cthhar3latmfi632u",
     "flux-dev");
    ("bafkreibks5pmc777snbo7dwk26sympe2o24tpqfedjq6gmgghwwu7iio34",
     "flux-schnell");
    ("bafkreidbaksrogxispjejczfj36vtf5uzsbjt7irspl6kckynz5u2ugzke",
     "flux-dev-nsfw");
    ("bafkreihiaeosw2jlyvzo7od46ihe4iwutgmppqj5d7z74g25qljlcmcikq",
     "flux-dev-18-loras");
    ("bafkreidnd2n2sp3gw6c4iutvgdtupqa4qlpsznpjnwqmsna2ko3uhv4fce",
     "nsfw-lab");
    ("bafkreidl2y42rs2ymhydn7gojikgv657yy73yldu3nanjsljeepen6ftsy",
     "lora-lab")
  ].

(** [MODEL_TO_HASH = {model: hash for hash, model in HASH_TO_MODEL.items()}] *)
Definition MODEL_TO_HASH : dict string :=
  dict_literal
    (map (fun '(hash, model) => (model, hash)) (dict_items HASH_TO_MODEL)).

Definition FEATURED_MODELS : dict (dict pyval) :=
  dict_literal [
    ("qwen3-embedding-0.6b",
      dict_literal [
        ("repo", PStr "Qwen/Qwen3-Embedding-0.6B-GGUF");
        ("model", PStr "Qwen3-Embedding-0.6B-Q8_0.gguf");
        ("task", PStr "embed");
        ("backend", PStr "gguf")
      ]);
    ("qwen3-embedding-4b",
      dict_literal [
        ("repo", PStr "Qwen/Qwen3-Embedding-4B-GGUF");
        ("model", PStr "Qwen3-Embedding-4B-Q8_0.gguf");
        ("task", PStr "embed");
        ("backend", PStr "gguf")
      ]);
    ("qwen3-1.7b",
      dict_literal [
        ("repo", PStr "Qwen/Qwen3-1.7B-GGUF");
        ("model", PStr "Qwen3-1.7B-Q8_0.gguf");
        ("task", PStr "chat");
        ("backend", PStr "gguf")
      ]);
    ("qwen3-4b",
      dict_literal [
        ("repo", PStr "Qwen/Qwen3-4B-GGUF");
        ("model", PStr "Qwen3-4B-Q8_0.gguf");
        ("task", PStr "chat");
        ("backend", PStr "gguf")
      ]);
    ("qwen3-8b",
      dict_literal [
        ("repo", PStr "Qwen/Qwen3-8B-GGUF");
        ("model", PStr "Qwen3-8B-Q8_0.gguf");
        ("task", PStr "chat");
        ("backend", PStr "gguf")
      ]);
    ("qwen3-14b",
      dict_literal [
        ("repo", PStr "Qwen/Qwen3-14B-GGUF");
        ("model", PStr "Qwen3-14B-Q8_0.gguf");
        ("task", PStr "chat");
        ("backend", PStr "gguf")
      ]);
    ("qwen3-32b",
      dict_literal [
        ("repo", PStr "Qwen/Qwen3-32B-GGUF");
        ("model", PStr "Qwen3-32B-Q8_0.gguf");
        ("task", PStr "chat");
        ("backend", PStr "gguf")
      ]);
    ("qwen3-30b-a3b",
      dict_literal [
        ("repo", PStr "Qwen/Qwen3-30B-GGUF");
        ("model", PStr "Qwen3-30B-A3B-Q8_0.gguf");
        ("task", PStr "chat");
        ("backend", PStr "gguf")
      ]);
    ("qwen3-30b-a3b-instruct-2507",
      dict_literal [
        ("repo", PStr "unsloth/Qwen3-30B-A3B-Instruct-2507-GGUF");
        ("model", PStr "Qwen3-30B-A3B-Instruct-2507-Q8_0.gguf");
        ("task", PStr "chat");
        ("backend", PStr "gguf")
      ]);
    ("qwen3-30b-a3b-thinking-2507",
      dict_literal [
        ("repo", PStr "unsloth/Qwen3-30B-A3B-Thinking-2507-GGUF");
        ("model", PStr "Qwen3-30B-A3B-Thinking-2507-Q8_0.gguf");
        ("task", PStr "chat");
        ("backend", PStr "gguf")
      ]);
    ("qwen3-coder-30b-a3b-instruct",
      dict_literal [
        ("repo", PStr "unsloth/Qwen3-Coder-30B-A3B-Instruct-GGUF");
        ("model", PStr "Qwen3-Coder-30B-A3B-Instruct-Q8_0.gguf");
        ("task", PStr "chat");
        ("backend", PStr "gguf")
      ]);
    ("qwen3-235b-a22b",
      dict_literal [
        ("repo", PStr "unsloth/Qwen3-235B-A22B-Instruct-2507-GGUF");
        ("pattern", PStr "Q4_K_M");
        ("task", PStr "chat");
        ("backend", PStr "gguf")
      ]);
    ("qwen3-coder-480b-a35b",
      dict_literal [
        ("repo", PStr "unsloth/Qwen3-Coder-480B-A35B-Instruct-GGUF");
        ("pattern", PStr "Q4_K_M");
        ("task", PStr "chat");
        ("backend", PStr "gguf")
      ]);
    ("gemma-3-4b",
      dict_literal [
        ("repo", PStr "lmstudio-community/gemma-3-4B-it-qat-GGUF");
        ("model", PStr "gemma-3-4B-it-QAT-Q4_0.gguf");
        ("projector", PStr "mmproj-model-f16.gguf");
        ("task", PStr "chat");
        ("backend", PStr "gguf")
      ]);
    ("gemma-3-12b",
      dict_literal [
        ("repo", PStr "lmstudio-community/gemma-3-12B-it-qat-GGUF");
        ("model", PStr "gemma-3-12B-it-QAT-Q4_0.gguf");
        ("projector", PStr "mmproj-model-f16.gguf");
        ("task", PStr "chat");
        ("backend", PStr "gguf")
      ]);
    ("gemma-3-27b",
      dict_literal [
        ("repo", PStr "lmstudio-community/gemma-3-27B-it-qat-GGUF");
        ("model", PStr "gemma-3-27B-it-QAT-Q4_0.gguf");
        ("projector", PStr "mmproj-model-f16.gguf");
        ("task", PStr "chat");
        ("backend", PStr "gguf")
      ]);
    ("gemma-3n-e4b",
      dict_literal [
        ("repo", PStr "unsloth/gemma-3n-E4B-it-GGUF");
        ("model", PStr "gemma-3n-E4B-it-Q8_0.gguf");
        ("task", PStr "chat");
        ("backend", PStr "gguf")
      ]);
    ("lfm2-1.2b",
      dict_literal [
        ("repo", PStr "LiquidAI/LFM2-1.2B-GGUF");
        ("model", PStr "LFM2-1.2B-Q8_0.gguf");
        ("task", PStr "chat");
        ("backend", PStr "gguf")
      ]);
    ("openreasoning-nemotron-32b",
      dict_literal [
        ("repo", PStr "lmstudio-community/OpenReasoning-Nemotron-32B-GGUF");
        ("model", PStr "OpenReasoning-Nemotron-32B-Q8_0.gguf");
        ("task", PStr "chat");
        ("backend", PStr "gguf")
      ]);
    ("devstral-small",
      dict_literal [
        ("repo", PStr "mistralai/Devstral-Small-2507_gguf");
        ("model", PStr "Devstral-Small-2507-Q8_0.gguf");
        ("task", PStr "chat");
        ("backend", PStr "gguf")
      ]);
    ("dolphin-3.0-llama3.1-8b",
      dict_literal [
        ("repo", PStr "dphn/Dolphin3.0-Llama3.1-8B-GGUF");
        ("model", PStr "Dolphin3.0-Llama3.1-8B-Q8_0.gguf");
        ("task", PStr "chat");
        ("backend", PStr "gguf")
      ]);
    ("gpt-oss-20b",
      dict_literal [
        ("repo", PStr "bartowski/openai_gpt-oss-20b-GGUF-MXFP4-Experimental");
        ("model", PStr "openai_gpt-oss-20b-MXFP4.gguf");
        ("task", PStr "chat");
        ("backend", PStr "gguf")
      ]);
    ("gpt-oss-120b",
      dict_literal [
        ("repo", PStr "ggml-org/gpt-oss-120b-GGUF");
        ("pattern", PStr "mxfp4");
        ("task", PStr "chat");
        ("backend", PStr "gguf")
      ]);
    ("gpt-oss-20b-mlx",
      dict_literal [
        ("hf-repo", PStr "lmstudio-community/gpt-oss-20b-GGUF");
        ("task", PStr "chat");
        ("backend", PStr "mlx-lm")
      ]);
    ("hermes-4-14b",
      dict_literal [
        ("repo", PStr "bartowski/NousResearch_Hermes-4-14B-GGUF");
        ("model", PStr "NousResearch_Hermes-4-14B-Q4_K_M.gguf");
        ("task", PStr "chat");
        ("backend", PStr "gguf")
      ]);
    ("hermes-4-70b",
      dict_literal [
        ("repo", PStr "bartowski/NousResearch_Hermes-4-70B-GGUF");
        ("model", PStr "NousResearch_Hermes-4-14B-Q8_0.gguf");
        ("task", PStr "chat");
        ("backend", PStr "gguf")
      ]);
    ("hermes-4-405b",
      dict_literal [
        ("repo", PStr "lmstudio-community/Hermes-4-405B-GGUF");
        ("pattern", PStr "Q4_K_M");
        ("task", PStr "chat");
        ("backend", PStr "gguf")
      ]);
    ("flux-dev",
      dict_literal [
        ("repo", PStr "NikolaSigmoid/FLUX.1-dev");
        ("task", PStr "image-generation");
        ("architecture", PStr "flux-dev");
        ("backend", PStr "mlx-flux")
      ]);
    ("flux-schnell",
      dict_literal [
        ("repo", PStr "NikolaSigmoid/FLUX.1-schnell");
        ("task", PStr "image-generation");
        ("architecture", PStr "flux-schnell");
        ("backend", PStr "mlx-flux")
      ]);
    ("flux-krea-dev",
      dict_literal [
        ("repo", PStr "NikolaSigmoid/FLUX.1-Krea-dev");
        ("task", PStr "image-generation");
        ("architecture", PStr "flux-dev");
        ("backend", PStr "mlx-flux")
      ]);
    ("flux-dev-nsfw",
      dict_literal [
        ("repo", PStr "NikolaSigmoid/FLUX.1-dev-NSFW-Master");
        ("task", PStr "image-generation");
        ("lora", PBool true);
        ("base_model", PStr "flux-dev");
        ("architecture", PStr "flux-dev");
        ("backend", PStr "mlx-flux")
      ]);
    ("flux-dev-18-loras",
      dict_literal [
        ("repo", PStr "NikolaSigmoid/FLUX.1-dev-18-loras");
        ("task", PStr "image-generation");
        ("lora", PBool true);
        ("base_model", PStr "flux-dev");
        ("architecture", PStr "flux-dev");
        ("backend", PStr "mlx-flux")
      ]);
    ("nsfw-lab",
      dict_literal [
        ("repo", PStr "NikolaSigmoid/NSFW-Lab");
        ("task", PStr "image-generation");
        ("lora", PBool true);
        ("base_model", PStr "flux-schnell");
        ("architecture", PStr "flux-schnell");
        ("backend", PStr "mlx-flux")
      ]);
    ("lora-lab",
      dict_literal [
        ("repo", PStr "NikolaSigmoid/lora-lab");
        ("task", PStr "image-generation");
        ("lora", PBool true);
        ("base_model", PStr "flux-dev");
        ("architecture", PStr "flux-dev");
        ("backend", PStr "mlx-flux")
      ])
  ].

(** ** Reading a metadata dict *)

(** The field is present in the entry. *)
Definition has_field (e : dict pyval) (f : string) : Prop :=
  dict_contains e f.

(** The field is present and holds the given string. *)
Definition field_is (e : dict pyval) (f : string) (s : string) : Prop :=
  dict_get e f = Some (PStr s).

(** The entry carries ["lora": True]. *)
Definition is_lora (e : dict pyval) : Prop :=
  dict_get e "lora" = Some (PBool true).

(** ** Lookup operations *)

Inductive error : Type :=
| DuplicateHash
| DuplicateModelName
| UnknownHash
| UnknownModel
| NoHashForModel
| MissingRequiredField
| ConflictingSelector
| DanglingBaseModel.

Inductive result (A : Type) : Type :=
| Ok (a : A)
| Err (e : error).
Arguments Ok {A} a.
Arguments Err {A} e.

(** Modelled from the spec: [resolveHash] is not defined in
    [eternal_zoo/models.py], which only binds the table; following section 4.1
    it is the lookup of the hash in [HASH_TO_MODEL], failing with
    [UnknownHash] if the hash is not registered. *)
Definition resolveHash (h : string) : result string :=
  match dict_get HASH_TO_MODEL h with
  | Some n => Ok n
  | None => Err UnknownHash
  end.

(** Modelled from the spec: [resolveName] is not defined in
    [eternal_zoo/models.py]; following section 4.1 it is the lookup of the name
    in [MODEL_TO_HASH], failing with [NoHashForModel] if the name has no
    published hash. *)
Definition resolveName (n : string) : result string :=
  match dict_get MODEL_TO_HASH n with
  | Some h => Ok h
  | None => Err NoHashForModel
  end.

(** Modelled from the spec: [get] is not defined in [eternal_zoo/models.py];
    following section 4.2 it is the lookup of the name in [FEATURED_MODELS],
    failing with [UnknownModel] if absent. *)
Definition get (n : string) : result (dict pyval) :=
  match dict_get FEATURED_MODELS n with
  | Some e => Ok e
  | None => Err UnknownModel
  end.

(** ** The comprehension over an arbitrary table *)

(** [{model: hash for hash, model in t.items()}], the expression bound to
    [MODEL_TO_HASH], with the table it reads taken as an argument. *)
Definition reverse_table (t : dict string) : dict string :=
  dict_literal (map (fun '(hash, model) => (model, hash)) (dict_items t)).

(** Equality of field values, as decided by [==]. *)
Definition pyval_eq_dec (x y : option pyval) : {x = y} + {x <> y}.
Proof. repeat decide equality. Defined.

(** ** Tactics for the literal tables *)

(** Walk a table entry by entry, running [tac] on each. *)
Ltac each_entry table tac :=
  match goal with
  | |- Forall ?P table =>
      let items := eval vm_compute in table in
      change (Forall P items);
      repeat (apply Forall_cons; [cbn [fst snd]; tac|]);
      apply Forall_nil
  end.

Ltac find_key := vm_compute; repeat first [left; reflexivity | right].
Ltac no_key := idtac; let H := fresh in intros H; vm_compute in H; intuition discriminate.
Ltac when_holds tac :=
  idtac; let H := fresh in
  intros H; vm_compute in H; first [discriminate H | clear H; tac].

Ltac has_key := solve [find_key].
Ltac one_of := first [reflexivity | left; reflexivity | right; one_of].
Ltac absurd_in H := exfalso; vm_compute in H; intuition discriminate.
Ltac holds_or_absurd tac :=
  idtac; let H := fresh in intros H; first [tac | absurd_in H].

(** ** Facts about dicts *)

Section DictFacts.
Context {V : Type}.
Implicit Types (d : dict V) (k : string) (v : V).

Lemma dict_get_In d k v : dict_get d k = Some v -> In (k, v) d.
Proof.
  induction d as [|[k' v'] d IH]; simpl; [discriminate|].
  destruct (String.eqb k' k) eqn:E.
  - apply String.eqb_eq in E. intros [= ->]. left. now subst.
  - intros H. right. now apply IH.
Qed.

Lemma dict_get_of_In d k v : dict_wf d -> In (k, v) d -> dict_get d k = Some v.
Proof.
  unfold dict_wf, dict_keys.
  induction d as [|[k' v'] d IH]; simpl; [easy|].
  intros Hnd [H|H]; inversion Hnd as [|? ? Hnotin Hnd']; subst.
  - injection H as -> ->. now rewrite String.eqb_refl.
  - destruct (String.eqb k' k) eqn:E; [|now apply IH].
    apply String.eqb_eq in E. subst k'. exfalso. apply Hnotin.
    change k with (fst (k, v)). now apply in_map.
Qed.

Lemma dict_get_contains d k :
  dict_contains d k <-> exists v, dict_get d k = Some v.
Proof.
  unfold dict_contains, dict_keys.
  induction d as [|[k' v'] d IH]; simpl.
  - split; [easy | now intros [v H]].
  - destruct (String.eqb k' k) eqn:E.
    + apply String.eqb_eq in E. split; [now exists v' | now left].
    + apply String.eqb_neq in E. rewrite <- IH. simpl. intuition congruence.
Qed.

Lemma dict_get_absent d k : ~ dict_contains d k -> dict_get d k = None.
Proof.
  intros H. destruct (dict_get d k) as [v|] eqn:E; [|reflexivity].
  exfalso. apply H, dict_get_contains. now exists v.
Qed.

Lemma dict_set_keys d k v k0 :
  In k0 (dict_keys (dict_set d k v)) <-> k0 = k \/ In k0 (dict_keys d).
Proof.
  unfold dict_keys.
  induction d as [|[k' v'] d IH]; simpl; [intuition congruence|].
  destruct (String.eqb k' k) eqn:E; simpl.
  - apply String.eqb_eq in E. subst k'. intuition congruence.
  - rewrite IH. tauto.
Qed.

Lemma dict_set_wf d k v : dict_wf d -> dict_wf (dict_set d k v).
Proof.
  unfold dict_wf.
  induction d as [|[k' v'] d IH]; simpl; intros Hnd.
  - constructor; [easy | constructor].
  - inversion Hnd as [|? ? Hnotin Hnd']; subst.
    destruct (String.eqb k' k) eqn:E; simpl.
    + now constructor.
    + apply String.eqb_neq in E. constructor; [|now apply IH].
      intros Hin. apply dict_set_keys in Hin. intuition congruence.
Qed.

(** A dict literal or comprehension never holds a key twice. *)
Lemma dict_literal_wf (kvs : list (string * V)) : dict_wf (dict_literal kvs).
Proof.
  unfold dict_literal.
  assert (G : forall acc, dict_wf acc ->
    dict_wf (fold_left (fun d kv => dict_set d (fst kv) (snd kv)) kvs acc)).
  { induction kvs as [|[k v] kvs IH]; simpl; intros acc Hacc; [easy|].
    apply IH. now apply dict_set_wf. }
  apply G. constructor.
Qed.

Lemma dict_set_fresh d k v :
  ~ In k (dict_keys d) -> dict_set d k v = d ++ [(k, v)].
Proof.
  unfold dict_keys.
  induction d as [|[k' v'] d IH]; simpl; intros Hnotin; [reflexivity|].
  destruct (String.eqb k' k) eqn:E.
  - apply String.eqb_eq in E. tauto.
  - f_equal. apply IH. tauto.
Qed.

(** When the keys listed are pairwise distinct, the dict holds exactly the
    listed pairs, in the order written. *)
Lemma dict_literal_distinct (kvs : list (string * V)) :
  NoDup (map fst kvs) -> dict_literal kvs = kvs.
Proof.
  unfold dict_literal.
  assert (G : forall acc, NoDup (map fst (acc ++ kvs)) ->
    fold_left (fun d kv => dict_set d (fst kv) (snd kv)) kvs acc = acc ++ kvs).
  { induction kvs as [|[k v] kvs IH]; simpl; intros acc Hnd.
    - now rewrite app_nil_r.
    - rewrite dict_set_fresh.
      + rewrite IH; rewrite <- app_assoc; [reflexivity | exact Hnd].
      + rewrite map_app in Hnd. simpl in Hnd.
        apply NoDup_remove_2 in Hnd. intros Hin. apply Hnd.
        apply in_or_app. now left. }
  intros Hnd. now apply (G []).
Qed.
End DictFacts.

(** ** Inverting a dict by comprehension *)

Section Inversion.
Variable d : dict string.
Hypothesis d_wf : dict_wf d.
Hypothesis d_values_distinct : NoDup (dict_values d).

(** With pairwise distinct values no assignment of the comprehension
    overwrites an earlier one: the result lists the swapped pairs. *)
Lemma inverse_items :
  dict_items
    (dict_literal (map (fun '(hash, model) => (model, hash)) (dict_items d)))
  = map (fun '(hash, model) => (model, hash)) (dict_items d).
Proof.
  unfold dict_items. apply dict_literal_distinct.
  rewrite map_map.
  erewrite map_ext; [exact d_values_distinct|].
  now intros [h n].
Qed.

Lemma inverse_get n h :
  dict_get
    (dict_literal (map (fun '(hash, model) => (model, hash)) (dict_items d)))
    n = Some h
  <-> dict_get d h = Some n.
Proof.
  set (inverse :=
    dict_literal (map (fun '(hash, model) => (model, hash)) (dict_items d))).
  assert (Hwf : dict_wf inverse) by apply dict_literal_wf.
  assert (Hin : In (n, h) inverse <-> In (h, n) d).
  { change inverse with (dict_items inverse). unfold inverse.
    rewrite inverse_items.
    unfold dict_items. rewrite in_map_iff. split.
    - intros [[h' n'] [[= -> ->] H]]. exact H.
    - intros H. now exists (h, n). }
  split; intros H.
  - apply dict_get_of_In; [exact d_wf|]. now apply Hin, dict_get_In.
  - apply dict_get_of_In; [exact Hwf|]. now apply Hin, dict_get_In.
Qed.
End Inversion.

(** ** The hash table *)

Lemma HASH_TO_MODEL_wf : dict_wf HASH_TO_MODEL.
Proof. apply dict_literal_wf. Qed.

(** No model name is listed under two hashes. *)
Lemma HASH_TO_MODEL_values_distinct : NoDup (dict_values HASH_TO_MODEL).
Proof.
  assert (E : nodup string_dec (dict_values HASH_TO_MODEL)
              = dict_values HASH_TO_MODEL) by (vm_compute; reflexivity).
  rewrite <- E. apply NoDup_nodup.
Qed.

Lemma MODEL_TO_HASH_get n h :
  dict_get MODEL_TO_HASH n = Some h <-> dict_get HASH_TO_MODEL h = Some n.
Proof.
  apply inverse_get.
  - exact HASH_TO_MODEL_wf.
  - exact HASH_TO_MODEL_values_distinct.
Qed.

(** ** The hash and name lookups *)

(** C1: every hash [h] that is a key of [HASH_TO_MODEL] round-trips through
    the two tables: [MODEL_TO_HASH[HASH_TO_MODEL[h]] == h]. *)
Theorem hash_name_roundtrip (h : string) :
  dict_contains HASH_TO_MODEL h ->
  exists n, dict_get HASH_TO_MODEL h = Some n /\
            dict_get MODEL_TO_HASH n = Some h.
Proof.
  intros Hin. apply dict_get_contains in Hin. destruct Hin as [n Hn].
  exists n. split; [exact Hn|]. now apply MODEL_TO_HASH_get.
Qed.

Lemma hash_name_roundtrip_witness :
  dict_contains HASH_TO_MODEL
    "bafkreiaha3sjfmv4affmi5kbu6bnayenf2avwafp3cthhar3latmfi632u" /\
  exists n,
    dict_get HASH_TO_MODEL
      "bafkreiaha3sjfmv4affmi5kbu6bnayenf2avwafp3cthhar3latmfi632u" = Some n /\
    dict_get MODEL_TO_HASH n
      = Some "bafkreiaha3sjfmv4affmi5kbu6bnayenf2avwafp3cthhar3latmfi632u".
Proof.
  assert (H : dict_contains HASH_TO_MODEL
    "bafkreiaha3sjfmv4affmi5kbu6bnayenf2avwafp3cthhar3latmfi632u").
  { vm_compute. do 21 right. left. reflexivity. }
  split; [exact H|].
  exact (hash_name_roundtrip
    "bafkreiaha3sjfmv4affmi5kbu6bnayenf2avwafp3cthhar3latmfi632u" H).
Defined.

(** C2: the table is a bijection.  Two distinct hashes never carry the same
    name, two distinct names never carry the same hash, and [MODEL_TO_HASH]
    holds exactly the pairs of [HASH_TO_MODEL] read backwards, being computed
    from it by the comprehension. *)
Theorem hash_name_bijection :
  (forall h1 h2 n1 n2,
      h1 <> h2 ->
      dict_get HASH_TO_MODEL h1 = Some n1 ->
      dict_get HASH_TO_MODEL h2 = Some n2 ->
      n1 <> n2) /\
  (forall n1 n2 h1 h2,
      n1 <> n2 ->
      dict_get MODEL_TO_HASH n1 = Some h1 ->
      dict_get MODEL_TO_HASH n2 = Some h2 ->
      h1 <> h2) /\
  (forall n h,
      dict_get MODEL_TO_HASH n = Some h <-> dict_get HASH_TO_MODEL h = Some n) /\
  dict_items MODEL_TO_HASH
    = map (fun '(hash, model) => (model, hash)) (dict_items HASH_TO_MODEL).
Proof.
  split; [|split; [|split]].
  - intros h1 h2 n1 n2 Hne H1 H2 Heq. subst n2.
    apply MODEL_TO_HASH_get in H1, H2. congruence.
  - intros n1 n2 h1 h2 Hne H1 H2 Heq. subst h2.
    apply MODEL_TO_HASH_get in H1, H2. congruence.
  - apply MODEL_TO_HASH_get.
  - apply inverse_items. exact HASH_TO_MODEL_values_distinct.
Qed.

Lemma hash_name_bijection_witness :
  "qwen3-4b" <> "qwen3-8b" /\
  dict_get MODEL_TO_HASH "qwen3-4b"
    = Some "bafkreiekokvzioogj5hoxgxlorqvbw2ed3w4mwieium5old5jq3iubixza" /\
  dict_get MODEL_TO_HASH "qwen3-8b"
    = Some "bafkreid5z4lddvv4qbgdlz2nqo6eumxwetwmkpesrumisx72k3ahq73zpy" /\
  "bafkreiekokvzioogj5hoxgxlorqvbw2ed3w4mwieium5old5jq3iubixza"
    <> "bafkreid5z4lddvv4qbgdlz2nqo6eumxwetwmkpesrumisx72k3ahq73zpy".
Proof.
  assert (Hne : "qwen3-4b" <> "qwen3-8b") by discriminate.
  assert (H1 : dict_get MODEL_TO_HASH "qwen3-4b"
    = Some "bafkreiekokvzioogj5hoxgxlorqvbw2ed3w4mwieium5old5jq3iubixza")
    by reflexivity.
  assert (H2 : dict_get MODEL_TO_HASH "qwen3-8b"
    = Some "bafkreid5z4lddvv4qbgdlz2nqo6eumxwetwmkpesrumisx72k3ahq73zpy")
    by reflexivity.
  split; [exact Hne | split; [exact H1 | split; [exact H2 |]]].
  exact (proj1 (proj2 hash_name_bijection) _ _ _ _ Hne H1 H2).
Defined.

(** ** The catalog *)

Lemma dict_get_Forall {V : Type} (P : string -> V -> Prop) (d : dict V) :
  Forall (fun kv => P (fst kv) (snd kv)) d ->
  forall k v, dict_get d k = Some v -> P k v.
Proof.
  intros HF k v Hget. apply dict_get_In in Hget.
  rewrite Forall_forall in HF. exact (HF (k, v) Hget).
Qed.

Lemma hashes_in_catalog :
  Forall (fun kv => dict_contains FEATURED_MODELS (snd kv)) HASH_TO_MODEL.
Proof. each_entry HASH_TO_MODEL find_key. Qed.

Lemma MODEL_TO_HASH_unpublished n :
  dict_get MODEL_TO_HASH n = None -> forall h, dict_get HASH_TO_MODEL h <> Some n.
Proof.
  intros Hnone h Hh. apply MODEL_TO_HASH_get in Hh. congruence.
Qed.

(** C3: every hash of [HASH_TO_MODEL] resolves to a name that is a key of
    [FEATURED_MODELS]; the converse does not hold, the catalog has a name
    that no hash resolves to. *)
Theorem published_names_in_catalog :
  (forall h n, dict_get HASH_TO_MODEL h = Some n ->
               dict_contains FEATURED_MODELS n) /\
  (exists n, dict_contains FEATURED_MODELS n /\
             forall h, dict_get HASH_TO_MODEL h <> Some n).
Proof.
  split.
  - intros h n. revert h n.
    apply (dict_get_Forall (fun _ n => dict_contains FEATURED_MODELS n)).
    exact hashes_in_catalog.
  - exists "hermes-4-14b". split; [find_key|].
    now apply MODEL_TO_HASH_unpublished.
Qed.

Lemma published_names_in_catalog_witness :
  dict_get HASH_TO_MODEL
    "bafkreidl2y42rs2ymhydn7gojikgv657yy73yldu3nanjsljeepen6ftsy"
    = Some "lora-lab" /\
  dict_contains FEATURED_MODELS "lora-lab".
Proof.
  assert (H : dict_get HASH_TO_MODEL
    "bafkreidl2y42rs2ymhydn7gojikgv657yy73yldu3nanjsljeepen6ftsy"
    = Some "lora-lab") by reflexivity.
  split; [exact H|].
  exact (proj1 published_names_in_catalog _ _ H).
Defined.

Lemma lora_entries_checked :
  Forall (fun kv =>
    is_lora (snd kv) ->
    exists b be,
      field_is (snd kv) "base_model" b /\
      dict_get FEATURED_MODELS b = Some be /\
      ~ is_lora be /\
      exists a, field_is (snd kv) "architecture" a /\
                field_is be "architecture" a) FEATURED_MODELS.
Proof.
  each_entry FEATURED_MODELS ltac:(when_holds ltac:(
    eexists; eexists;
    split; [reflexivity|];
    split; [reflexivity|];
    split; [intros Hl; discriminate Hl|];
    eexists; split; reflexivity)).
Qed.

(** C4: an entry of [FEATURED_MODELS] with [lora] true has a [base_model]
    field naming a key of [FEATURED_MODELS]; the entry so named is not itself
    a LoRA entry and has the same [architecture] as the LoRA entry. *)
Theorem lora_base_model (n : string) (e : dict pyval) :
  dict_get FEATURED_MODELS n = Some e ->
  is_lora e ->
  exists b be,
    field_is e "base_model" b /\
    dict_get FEATURED_MODELS b = Some be /\
    ~ is_lora be /\
    exists a, field_is e "architecture" a /\ field_is be "architecture" a.
Proof.
  revert n e.
  apply (dict_get_Forall (fun _ e =>
    is_lora e ->
    exists b be,
      field_is e "base_model" b /\
      dict_get FEATURED_MODELS b = Some be /\
      ~ is_lora be /\
      exists a, field_is e "architecture" a /\ field_is be "architecture" a)).
  exact lora_entries_checked.
Qed.

Lemma lora_base_model_witness :
  exists e,
    dict_get FEATURED_MODELS "nsfw-lab" = Some e /\
    is_lora e /\
    exists b be,
      field_is e "base_model" b /\
      dict_get FEATURED_MODELS b = Some be /\
      ~ is_lora be /\
      exists a, field_is e "architecture" a /\ field_is be "architecture" a.
Proof.
  exists [("repo", PStr "NikolaSigmoid/NSFW-Lab");
          ("task", PStr "image-generation");
          ("lora", PBool true);
          ("base_model", PStr "flux-schnell");
          ("architecture", PStr "flux-schnell");
          ("backend", PStr "mlx-flux")].
  split; [reflexivity|]. split; [reflexivity|].
  apply (lora_base_model "nsfw-lab"); reflexivity.
Defined.

Lemma gguf_entries_checked :
  Forall (fun kv =>
    field_is (snd kv) "backend" "gguf" ->
    has_field (snd kv) "repo" /\
    (field_is (snd kv) "task" "chat" \/ field_is (snd kv) "task" "embed") /\
    ((has_field (snd kv) "model" /\ ~ has_field (snd kv) "pattern") \/
     (~ has_field (snd kv) "model" /\ has_field (snd kv) "pattern")))
    FEATURED_MODELS.
Proof.
  each_entry FEATURED_MODELS ltac:(when_holds ltac:(
    split; [find_key|];
    split; [first [left; reflexivity | right; reflexivity]|];
    first [left; split; [find_key | no_key]
          | right; split; [no_key | find_key]])).
Qed.

(** C5: an entry of [FEATURED_MODELS] with [backend] ["gguf"] has a [repo]
    field, its [task] is ["chat"] or ["embed"], and it has exactly one of the
    fields [model] and [pattern]. *)
Theorem gguf_entry_shape (n : string) (e : dict pyval) :
  dict_get FEATURED_MODELS n = Some e ->
  field_is e "backend" "gguf" ->
  has_field e "repo" /\
  (field_is e "task" "chat" \/ field_is e "task" "embed") /\
  ((has_field e "model" /\ ~ has_field e "pattern") \/
   (~ has_field e "model" /\ has_field e "pattern")).
Proof.
  revert n e.
  apply (dict_get_Forall (fun _ e =>
    field_is e "backend" "gguf" ->
    has_field e "repo" /\
    (field_is e "task" "chat" \/ field_is e "task" "embed") /\
    ((has_field e "model" /\ ~ has_field e "pattern") \/
     (~ has_field e "model" /\ has_field e "pattern")))).
  exact gguf_entries_checked.
Qed.

Lemma gguf_entry_shape_witness :
  exists e,
    dict_get FEATURED_MODELS "gpt-oss-120b" = Some e /\
    field_is e "backend" "gguf" /\
    has_field e "repo" /\
    (field_is e "task" "chat" \/ field_is e "task" "embed") /\
    ((has_field e "model" /\ ~ has_field e "pattern") \/
     (~ has_field e "model" /\ has_field e "pattern")).
Proof.
  exists [("repo", PStr "ggml-org/gpt-oss-120b-GGUF");
          ("pattern", PStr "mxfp4");
          ("task", PStr "chat");
          ("backend", PStr "gguf")].
  split; [reflexivity|]. split; [reflexivity|].
  apply (gguf_entry_shape "gpt-oss-120b"); reflexivity.
Defined.

Lemma mlx_flux_entries_checked :
  Forall (fun kv =>
    field_is (snd kv) "backend" "mlx-flux" ->
    field_is (snd kv) "task" "image-generation" /\
    has_field (snd kv) "architecture" /\
    has_field (snd kv) "repo") FEATURED_MODELS.
Proof.
  each_entry FEATURED_MODELS ltac:(when_holds ltac:(
    split; [reflexivity|]; split; find_key)).
Qed.

Lemma image_entries_checked :
  Forall (fun kv =>
    field_is (snd kv) "task" "image-generation" ->
    has_field (snd kv) "architecture") FEATURED_MODELS.
Proof. each_entry FEATURED_MODELS ltac:(when_holds find_key). Qed.

(** C6: an entry of [FEATURED_MODELS] with [backend] ["mlx-flux"] has [task]
    ["image-generation"], an [architecture] field and a [repo] field; and
    every entry with [task] ["image-generation"] has an [architecture]
    field. *)
Theorem mlx_flux_entry_shape :
  (forall n e,
      dict_get FEATURED_MODELS n = Some e ->
      field_is e "backend" "mlx-flux" ->
      field_is e "task" "image-generation" /\
      has_field e "architecture" /\
      has_field e "repo") /\
  (forall n e,
      dict_get FEATURED_MODELS n = Some e ->
      field_is e "task" "image-generation" ->
      has_field e "architecture").
Proof.
  split.
  - apply (dict_get_Forall (fun _ e =>
      field_is e "backend" "mlx-flux" ->
      field_is e "task" "image-generation" /\
      has_field e "architecture" /\
      has_field e "repo")).
    exact mlx_flux_entries_checked.
  - apply (dict_get_Forall (fun _ e =>
      field_is e "task" "image-generation" -> has_field e "architecture")).
    exact image_entries_checked.
Qed.

Lemma mlx_flux_entry_shape_witness :
  exists e,
    dict_get FEATURED_MODELS "flux-krea-dev" = Some e /\
    field_is e "backend" "mlx-flux" /\
    field_is e "task" "image-generation" /\
    has_field e "architecture" /\
    has_field e "repo".
Proof.
  exists [("repo", PStr "NikolaSigmoid/FLUX.1-Krea-dev");
          ("task", PStr "image-generation");
          ("architecture", PStr "flux-dev");
          ("backend", PStr "mlx-flux")].
  split; [reflexivity|]. split; [reflexivity|].
  apply (proj1 mlx_flux_entry_shape "flux-krea-dev"); reflexivity.
Defined.

Lemma lora_entries_backend :
  Forall (fun kv =>
    is_lora (snd kv) ->
    field_is (snd kv) "backend" "mlx-flux" /\
    field_is (snd kv) "task" "image-generation") FEATURED_MODELS.
Proof.
  each_entry FEATURED_MODELS ltac:(when_holds ltac:(split; reflexivity)).
Qed.

(** C10: every entry of [FEATURED_MODELS] with [lora] true has [backend]
    ["mlx-flux"] and [task] ["image-generation"]. *)
Theorem lora_only_mlx_flux (n : string) (e : dict pyval) :
  dict_get FEATURED_MODELS n = Some e ->
  is_lora e ->
  field_is e "backend" "mlx-flux" /\ field_is e "task" "image-generation".
Proof.
  revert n e.
  apply (dict_get_Forall (fun _ e =>
    is_lora e ->
    field_is e "backend" "mlx-flux" /\ field_is e "task" "image-generation")).
  exact lora_entries_backend.
Qed.

Lemma lora_only_mlx_flux_witness :
  exists e,
    dict_get FEATURED_MODELS "lora-lab" = Some e /\
    is_lora e /\
    field_is e "backend" "mlx-flux" /\ field_is e "task" "image-generation".
Proof.
  exists [("repo", PStr "NikolaSigmoid/lora-lab");
          ("task", PStr "image-generation");
          ("lora", PBool true);
          ("base_model", PStr "flux-dev");
          ("architecture", PStr "flux-dev");
          ("backend", PStr "mlx-flux")].
  split; [reflexivity|]. split; [reflexivity|].
  apply (lora_only_mlx_flux "lora-lab"); reflexivity.
Defined.

(** ** Failing lookups *)

(** C7: ["gpt-oss-20b-mlx"] is a key of [FEATURED_MODELS] and not a key of
    [MODEL_TO_HASH]; for every catalog name that is not a key of
    [MODEL_TO_HASH], [resolveName] fails with [NoHashForModel]. *)
Theorem unpublished_name_has_no_hash :
  dict_contains FEATURED_MODELS "gpt-oss-20b-mlx" /\
  ~ dict_contains MODEL_TO_HASH "gpt-oss-20b-mlx" /\
  (forall n,
      dict_contains FEATURED_MODELS n ->
      ~ dict_contains MODEL_TO_HASH n ->
      resolveName n = Err NoHashForModel).
Proof.
  split; [find_key|]. split; [no_key|].
  intros n _ Hn. unfold resolveName. now rewrite (dict_get_absent _ _ Hn).
Qed.

Lemma unpublished_name_has_no_hash_witness :
  dict_contains FEATURED_MODELS "flux-krea-dev" /\
  ~ dict_contains MODEL_TO_HASH "flux-krea-dev" /\
  resolveName "flux-krea-dev" = Err NoHashForModel.
Proof.
  assert (H1 : dict_contains FEATURED_MODELS "flux-krea-dev") by find_key.
  assert (H2 : ~ dict_contains MODEL_TO_HASH "flux-krea-dev") by no_key.
  split; [exact H1 | split; [exact H2 |]].
  exact (proj2 (proj2 unpublished_name_has_no_hash) "flux-krea-dev" H1 H2).
Defined.

(** C8: [resolveHash] fails with [UnknownHash] on every string that is not a
    key of [HASH_TO_MODEL], and [get] fails with [UnknownModel] on every
    string that is not a key of [FEATURED_MODELS]; no name and no record is
    returned in these cases. *)
Theorem unknown_lookups_fail :
  (forall h,
      ~ dict_contains HASH_TO_MODEL h ->
      resolveHash h = Err UnknownHash /\ forall n, resolveHash h <> Ok n) /\
  (forall n,
      ~ dict_contains FEATURED_MODELS n ->
      get n = Err UnknownModel /\ forall e, get n <> Ok e).
Proof.
  split.
  - intros h Hh. unfold resolveHash. rewrite (dict_get_absent _ _ Hh).
    split; [reflexivity | discriminate].
  - intros n Hn. unfold get. rewrite (dict_get_absent _ _ Hn).
    split; [reflexivity | discriminate].
Qed.

Lemma unknown_lookups_fail_witness :
  (~ dict_contains HASH_TO_MODEL "qwen3-8b" /\
   resolveHash "qwen3-8b" = Err UnknownHash /\
   forall n, resolveHash "qwen3-8b" <> Ok n) /\
  (~ dict_contains FEATURED_MODELS "qwen3-0.6b" /\
   get "qwen3-0.6b" = Err UnknownModel /\
   forall e, get "qwen3-0.6b" <> Ok e).
Proof.
  assert (H1 : ~ dict_contains HASH_TO_MODEL "qwen3-8b") by no_key.
  assert (H2 : ~ dict_contains FEATURED_MODELS "qwen3-0.6b") by no_key.
  split.
  - split; [exact H1 | exact (proj1 unknown_lookups_fail "qwen3-8b" H1)].
  - split; [exact H2 | exact (proj2 unknown_lookups_fail "qwen3-0.6b" H2)].
Defined.

(** C9: [resolveHash] maps the hash
    [bafkreiacd5mwy4a5wkdmvxsk42nsupes5uf4q3dm52k36mvbhgdrez422y] to
    ["qwen3-embedding-0.6b"], [resolveName] maps that name back to the hash,
    and [get] returns for it a record with [task] ["embed"], [backend]
    ["gguf"], [repo] ["Qwen/Qwen3-Embedding-0.6B-GGUF"] and [model]
    ["Qwen3-Embedding-0.6B-Q8_0.gguf"]. *)
Theorem qwen3_embedding_lookup :
  resolveHash "bafkreiacd5mwy4a5wkdmvxsk42nsupes5uf4q3dm52k36mvbhgdrez422y"
    = Ok "qwen3-embedding-0.6b" /\
  resolveName "qwen3-embedding-0.6b"
    = Ok "bafkreiacd5mwy4a5wkdmvxsk42nsupes5uf4q3dm52k36mvbhgdrez422y" /\
  exists e,
    get "qwen3-embedding-0.6b" = Ok e /\
    field_is e "task" "embed" /\
    field_is e "backend" "gguf" /\
    field_is e "repo" "Qwen/Qwen3-Embedding-0.6B-GGUF" /\
    field_is e "model" "Qwen3-Embedding-0.6B-Q8_0.gguf".
Proof.
  split; [reflexivity|]. split; [reflexivity|].
  eexists. split; [reflexivity|].
  split; [reflexivity|]. split; [reflexivity|]. split; reflexivity.
Qed.

(** ** Further invariants of the catalog *)

Lemma entries_enums_checked :
  Forall (fun kv =>
    (field_is (snd kv) "task" "chat" \/
     field_is (snd kv) "task" "embed" \/
     field_is (snd kv) "task" "image-generation") /\
    (field_is (snd kv) "backend" "gguf" \/
     field_is (snd kv) "backend" "mlx-lm" \/
     field_is (snd kv) "backend" "mlx-flux")) FEATURED_MODELS.
Proof. each_entry FEATURED_MODELS ltac:(split; one_of). Qed.

(** X1: every entry of [FEATURED_MODELS] has a [task] among ["chat"],
    ["embed"], ["image-generation"] and a [backend] among ["gguf"],
    ["mlx-lm"], ["mlx-flux"]. *)
Theorem entry_task_backend_enum (n : string) (e : dict pyval) :
  dict_get FEATURED_MODELS n = Some e ->
  (field_is e "task" "chat" \/
   field_is e "task" "embed" \/
   field_is e "task" "image-generation") /\
  (field_is e "backend" "gguf" \/
   field_is e "backend" "mlx-lm" \/
   field_is e "backend" "mlx-flux").
Proof.
  revert n e.
  apply (dict_get_Forall (fun _ e =>
    (field_is e "task" "chat" \/
     field_is e "task" "embed" \/
     field_is e "task" "image-generation") /\
    (field_is e "backend" "gguf" \/
     field_is e "backend" "mlx-lm" \/
     field_is e "backend" "mlx-flux"))).
  exact entries_enums_checked.
Qed.

Lemma entry_task_backend_enum_witness :
  exists e,
    dict_get FEATURED_MODELS "gpt-oss-20b-mlx" = Some e /\
    (field_is e "task" "chat" \/
     field_is e "task" "embed" \/
     field_is e "task" "image-generation") /\
    (field_is e "backend" "gguf" \/
     field_is e "backend" "mlx-lm" \/
     field_is e "backend" "mlx-flux").
Proof.
  exists [("hf-repo", PStr "lmstudio-community/gpt-oss-20b-GGUF");
          ("task", PStr "chat");
          ("backend", PStr "mlx-lm")].
  split; [reflexivity|].
  apply (entry_task_backend_enum "gpt-oss-20b-mlx"); reflexivity.
Defined.

Lemma task_backend_pairs_checked :
  Forall (fun kv =>
    (field_is (snd kv) "task" "image-generation" ->
     field_is (snd kv) "backend" "mlx-flux") /\
    (field_is (snd kv) "task" "embed" ->
     field_is (snd kv) "backend" "gguf") /\
    (field_is (snd kv) "backend" "mlx-lm" ->
     field_is (snd kv) "task" "chat")) FEATURED_MODELS.
Proof.
  each_entry FEATURED_MODELS ltac:(
    split; [|split]; when_holds ltac:(reflexivity)).
Qed.

(** X2: in [FEATURED_MODELS] the task fixes the backend for two tasks and the
    backend fixes the task for one backend: an ["image-generation"] entry is
    served by ["mlx-flux"], an ["embed"] entry by ["gguf"], and an ["mlx-lm"]
    entry is a ["chat"] entry. *)
Theorem task_backend_pairing (n : string) (e : dict pyval) :
  dict_get FEATURED_MODELS n = Some e ->
  (field_is e "task" "image-generation" -> field_is e "backend" "mlx-flux") /\
  (field_is e "task" "embed" -> field_is e "backend" "gguf") /\
  (field_is e "backend" "mlx-lm" -> field_is e "task" "chat").
Proof.
  revert n e.
  apply (dict_get_Forall (fun _ e =>
    (field_is e "task" "image-generation" ->
     field_is e "backend" "mlx-flux") /\
    (field_is e "task" "embed" -> field_is e "backend" "gguf") /\
    (field_is e "backend" "mlx-lm" -> field_is e "task" "chat"))).
  exact task_backend_pairs_checked.
Qed.

Lemma task_backend_pairing_witness :
  exists e,
    dict_get FEATURED_MODELS "qwen3-embedding-4b" = Some e /\
    field_is e "task" "embed" /\
    field_is e "backend" "gguf".
Proof.
  exists [("repo", PStr "Qwen/Qwen3-Embedding-4B-GGUF");
          ("model", PStr "Qwen3-Embedding-4B-Q8_0.gguf");
          ("task", PStr "embed");
          ("backend", PStr "gguf")].
  assert (H : dict_get FEATURED_MODELS "qwen3-embedding-4b"
    = Some [("repo", PStr "Qwen/Qwen3-Embedding-4B-GGUF");
            ("model", PStr "Qwen3-Embedding-4B-Q8_0.gguf");
            ("task", PStr "embed");
            ("backend", PStr "gguf")]) by reflexivity.
  split; [exact H|]. split; [reflexivity|].
  apply (proj1 (proj2 (task_backend_pairing _ _ H))). reflexivity.
Defined.

Lemma repo_fields_checked :
  Forall (fun kv =>
    (has_field (snd kv) "repo" /\
     ~ has_field (snd kv) "hf-repo" /\
     ~ field_is (snd kv) "backend" "mlx-lm") \/
    (has_field (snd kv) "hf-repo" /\
     ~ has_field (snd kv) "repo" /\
     field_is (snd kv) "backend" "mlx-lm")) FEATURED_MODELS.
Proof.
  each_entry FEATURED_MODELS ltac:(
    first [left; split; [has_key | split; no_key]
          | right; split; [has_key | split; [no_key | reflexivity]]]).
Qed.

(** X3: every entry of [FEATURED_MODELS] has exactly one of the fields
    [repo] and [hf-repo], and it is [hf-repo] exactly when the [backend] is
    ["mlx-lm"]. *)
Theorem repo_or_hf_repo (n : string) (e : dict pyval) :
  dict_get FEATURED_MODELS n = Some e ->
  (has_field e "repo" /\
   ~ has_field e "hf-repo" /\
   ~ field_is e "backend" "mlx-lm") \/
  (has_field e "hf-repo" /\
   ~ has_field e "repo" /\
   field_is e "backend" "mlx-lm").
Proof.
  revert n e.
  apply (dict_get_Forall (fun _ e =>
    (has_field e "repo" /\
     ~ has_field e "hf-repo" /\
     ~ field_is e "backend" "mlx-lm") \/
    (has_field e "hf-repo" /\
     ~ has_field e "repo" /\
     field_is e "backend" "mlx-lm"))).
  exact repo_fields_checked.
Qed.

Lemma repo_or_hf_repo_witness :
  exists e,
    dict_get FEATURED_MODELS "gpt-oss-20b-mlx" = Some e /\
    ((has_field e "repo" /\
      ~ has_field e "hf-repo" /\
      ~ field_is e "backend" "mlx-lm") \/
     (has_field e "hf-repo" /\
      ~ has_field e "repo" /\
      field_is e "backend" "mlx-lm")).
Proof.
  exists [("hf-repo", PStr "lmstudio-community/gpt-oss-20b-GGUF");
          ("task", PStr "chat");
          ("backend", PStr "mlx-lm")].
  split; [reflexivity|].
  apply (repo_or_hf_repo "gpt-oss-20b-mlx"); reflexivity.
Defined.

Lemma selector_fields_checked :
  Forall (fun kv =>
    has_field (snd kv) "model" \/
    has_field (snd kv) "pattern" \/
    has_field (snd kv) "projector" ->
    field_is (snd kv) "backend" "gguf") FEATURED_MODELS.
Proof.
  each_entry FEATURED_MODELS ltac:(holds_or_absurd ltac:(reflexivity)).
Qed.

(** X4: the file fields [model], [pattern] and [projector] occur in
    [FEATURED_MODELS] only on entries with [backend] ["gguf"]; the entries of
    the two other backends carry no weight-file selector. *)
Theorem file_fields_only_on_gguf (n : string) (e : dict pyval) :
  dict_get FEATURED_MODELS n = Some e ->
  has_field e "model" \/ has_field e "pattern" \/ has_field e "projector" ->
  field_is e "backend" "gguf".
Proof.
  revert n e.
  apply (dict_get_Forall (fun _ e =>
    has_field e "model" \/ has_field e "pattern" \/ has_field e "projector" ->
    field_is e "backend" "gguf")).
  exact selector_fields_checked.
Qed.

Lemma file_fields_only_on_gguf_witness :
  exists e,
    dict_get FEATURED_MODELS "hermes-4-405b" = Some e /\
    (has_field e "model" \/ has_field e "pattern" \/ has_field e "projector") /\
    field_is e "backend" "gguf".
Proof.
  exists [("repo", PStr "lmstudio-community/Hermes-4-405B-GGUF");
          ("pattern", PStr "Q4_K_M");
          ("task", PStr "chat");
          ("backend", PStr "gguf")].
  assert (H : has_field
    [("repo", PStr "lmstudio-community/Hermes-4-405B-GGUF");
     ("pattern", PStr "Q4_K_M");
     ("task", PStr "chat");
     ("backend", PStr "gguf")] "model"
    \/ has_field
    [("repo", PStr "lmstudio-community/Hermes-4-405B-GGUF");
     ("pattern", PStr "Q4_K_M");
     ("task", PStr "chat");
     ("backend", PStr "gguf")] "pattern"
    \/ has_field
    [("repo", PStr "lmstudio-community/Hermes-4-405B-GGUF");
     ("pattern", PStr "Q4_K_M");
     ("task", PStr "chat");
     ("backend", PStr "gguf")] "projector").
  { right. left. has_key. }
  split; [reflexivity|]. split; [exact H|].
  apply (file_fields_only_on_gguf "hermes-4-405b"); [reflexivity | exact H].
Defined.

Lemma projector_entries_checked :
  Forall (fun kv =>
    has_field (snd kv) "projector" ->
    field_is (snd kv) "task" "chat" /\
    has_field (snd kv) "model" /\
    ~ has_field (snd kv) "pattern") FEATURED_MODELS.
Proof.
  each_entry FEATURED_MODELS ltac:(holds_or_absurd ltac:(
    split; [reflexivity | split; [has_key | no_key]])).
Qed.

(** X5: an entry of [FEATURED_MODELS] with a [projector] field is a ["chat"]
    entry whose weights are named by an exact [model] file, not by a
    [pattern]. *)
Theorem projector_entry_shape (n : string) (e : dict pyval) :
  dict_get FEATURED_MODELS n = Some e ->
  has_field e "projector" ->
  field_is e "task" "chat" /\ has_field e "model" /\ ~ has_field e "pattern".
Proof.
  revert n e.
  apply (dict_get_Forall (fun _ e =>
    has_field e "projector" ->
    field_is e "task" "chat" /\ has_field e "model" /\
    ~ has_field e "pattern")).
  exact projector_entries_checked.
Qed.

Lemma projector_entry_shape_witness :
  exists e,
    dict_get FEATURED_MODELS "gemma-3-12b" = Some e /\
    has_field e "projector" /\
    field_is e "task" "chat" /\ has_field e "model" /\ ~ has_field e "pattern".
Proof.
  exists [("repo", PStr "lmstudio-community/gemma-3-12B-it-qat-GGUF");
          ("model", PStr "gemma-3-12B-it-QAT-Q4_0.gguf");
          ("projector", PStr "mmproj-model-f16.gguf");
          ("task", PStr "chat");
          ("backend", PStr "gguf")].
  split; [reflexivity|]. split; [has_key|].
  apply (projector_entry_shape "gemma-3-12b"); [reflexivity | has_key].
Defined.

Lemma lora_fields_checked :
  Forall (fun kv =>
    has_field (snd kv) "lora" \/ has_field (snd kv) "base_model" ->
    is_lora (snd kv)) FEATURED_MODELS.
Proof.
  each_entry FEATURED_MODELS ltac:(holds_or_absurd ltac:(reflexivity)).
Qed.

(** X6: in [FEATURED_MODELS] the field [lora], where present, holds [True],
    and the field [base_model] is present only on entries with [lora]
    true. *)
Theorem lora_fields_imply_lora (n : string) (e : dict pyval) :
  dict_get FEATURED_MODELS n = Some e ->
  has_field e "lora" \/ has_field e "base_model" ->
  is_lora e.
Proof.
  revert n e.
  apply (dict_get_Forall (fun _ e =>
    has_field e "lora" \/ has_field e "base_model" -> is_lora e)).
  exact lora_fields_checked.
Qed.

Lemma lora_fields_imply_lora_witness :
  exists e,
    dict_get FEATURED_MODELS "flux-dev-18-loras" = Some e /\
    (has_field e "lora" \/ has_field e "base_model") /\
    is_lora e.
Proof.
  exists [("repo", PStr "NikolaSigmoid/FLUX.1-dev-18-loras");
          ("task", PStr "image-generation");
          ("lora", PBool true);
          ("base_model", PStr "flux-dev");
          ("architecture", PStr "flux-dev");
          ("backend", PStr "mlx-flux")].
  split; [reflexivity|]. split; [right; has_key|].
  apply (lora_fields_imply_lora "flux-dev-18-loras");
    [reflexivity | right; has_key].
Defined.

Lemma architecture_entries_checked :
  Forall (fun kv =>
    has_field (snd kv) "architecture" ->
    field_is (snd kv) "task" "image-generation" /\
    (field_is (snd kv) "architecture" "flux-dev" \/
     field_is (snd kv) "architecture" "flux-schnell")) FEATURED_MODELS.
Proof.
  each_entry FEATURED_MODELS ltac:(holds_or_absurd ltac:(
    split; [reflexivity | one_of])).
Qed.

(** X7: the field [architecture] occurs in [FEATURED_MODELS] only on
    ["image-generation"] entries, and its value is ["flux-dev"] or
    ["flux-schnell"]. *)
Theorem architecture_entry_shape (n : string) (e : dict pyval) :
  dict_get FEATURED_MODELS n = Some e ->
  has_field e "architecture" ->
  field_is e "task" "image-generation" /\
  (field_is e "architecture" "flux-dev" \/
   field_is e "architecture" "flux-schnell").
Proof.
  revert n e.
  apply (dict_get_Forall (fun _ e =>
    has_field e "architecture" ->
    field_is e "task" "image-generation" /\
    (field_is e "architecture" "flux-dev" \/
     field_is e "architecture" "flux-schnell"))).
  exact architecture_entries_checked.
Qed.

Lemma architecture_entry_shape_witness :
  exists e,
    dict_get FEATURED_MODELS "flux-schnell" = Some e /\
    has_field e "architecture" /\
    field_is e "task" "image-generation" /\
    (field_is e "architecture" "flux-dev" \/
     field_is e "architecture" "flux-schnell").
Proof.
  exists [("repo", PStr "NikolaSigmoid/FLUX.1-schnell");
          ("task", PStr "image-generation");
          ("architecture", PStr "flux-schnell");
          ("backend", PStr "mlx-flux")].
  split; [reflexivity|]. split; [has_key|].
  apply (architecture_entry_shape "flux-schnell"); [reflexivity | has_key].
Defined.

Lemma field_values_checked :
  Forall (fun kv =>
    Forall (fun fv =>
      In (fst fv)
         ["repo"; "hf-repo"; "model"; "pattern"; "projector"; "task";
          "backend"; "architecture"; "lora"; "base_model"] /\
      (fst fv = "lora" <-> exists b, snd fv = PBool b))
      (snd kv)) FEATURED_MODELS.
Proof.
  each_entry FEATURED_MODELS ltac:(
    repeat (apply Forall_cons;
      [cbn [fst snd];
       split; [has_key|];
       split;
       [ let H := fresh in intros H; first [discriminate H | eexists; reflexivity]
       | let b := fresh in let H := fresh in
         intros [b H]; first [discriminate H | reflexivity] ]
      |]);
    apply Forall_nil).
Qed.

(** X8: every field of every entry of [FEATURED_MODELS] is one of the ten
    names [repo], [hf-repo], [model], [pattern], [projector], [task],
    [backend], [architecture], [lora], [base_model]; the value of [lora] is a
    boolean and the value of every other field is a string. *)
Theorem entry_field_vocabulary (n : string) (e : dict pyval)
    (f : string) (v : pyval) :
  dict_get FEATURED_MODELS n = Some e ->
  dict_get e f = Some v ->
  In f ["repo"; "hf-repo"; "model"; "pattern"; "projector"; "task";
        "backend"; "architecture"; "lora"; "base_model"] /\
  (f = "lora" <-> exists b, v = PBool b) /\
  (f <> "lora" <-> exists s, v = PStr s).
Proof.
  intros He Hf.
  pose proof (dict_get_Forall (fun _ e =>
    Forall (fun fv =>
      In (fst fv)
         ["repo"; "hf-repo"; "model"; "pattern"; "projector"; "task";
          "backend"; "architecture"; "lora"; "base_model"] /\
      (fst fv = "lora" <-> exists b, snd fv = PBool b)) e)
    FEATURED_MODELS field_values_checked n e He) as HF.
  rewrite Forall_forall in HF.
  destruct (HF (f, v) (dict_get_In _ _ _ Hf)) as [Hin Hl]. cbn [fst snd] in *.
  split; [exact Hin|]. split; [exact Hl|].
  rewrite Hl. destruct v as [s|b]; split.
  - intros _. now exists s.
  - intros _ [b Hb]. discriminate Hb.
  - intros H. exfalso. apply H. now exists b.
  - intros [s Hs]. discriminate Hs.
Qed.

Lemma entry_field_vocabulary_witness :
  exists e,
    dict_get FEATURED_MODELS "nsfw-lab" = Some e /\
    dict_get e "lora" = Some (PBool true) /\
    In "lora" ["repo"; "hf-repo"; "model"; "pattern"; "projector"; "task";
               "backend"; "architecture"; "lora"; "base_model"] /\
    ("lora" = "lora" <-> exists b, PBool true = PBool b) /\
    ("lora" <> "lora" <-> exists s, PBool true = PStr s).
Proof.
  exists [("repo", PStr "NikolaSigmoid/NSFW-Lab");
          ("task", PStr "image-generation");
          ("lora", PBool true);
          ("base_model", PStr "flux-schnell");
          ("architecture", PStr "flux-schnell");
          ("backend", PStr "mlx-flux")].
  split; [reflexivity|]. split; [reflexivity|].
  apply (entry_field_vocabulary "nsfw-lab"
    [("repo", PStr "NikolaSigmoid/NSFW-Lab");
     ("task", PStr "image-generation");
     ("lora", PBool true);
     ("base_model", PStr "flux-schnell");
     ("architecture", PStr "flux-schnell");
     ("backend", PStr "mlx-flux")]); reflexivity.
Defined.

Lemma lora_entries_published :
  Forall (fun kv =>
    is_lora (snd kv) ->
    dict_contains MODEL_TO_HASH (fst kv) /\
    exists b, field_is (snd kv) "base_model" b /\
              dict_contains MODEL_TO_HASH b) FEATURED_MODELS.
Proof.
  each_entry FEATURED_MODELS ltac:(when_holds ltac:(
    split; [has_key | eexists; split; [reflexivity | has_key]])).
Qed.

(** X9: every entry of [FEATURED_MODELS] with [lora] true is published, its
    name being a key of [MODEL_TO_HASH], and so is the base model it names. *)
Theorem lora_and_base_published (n : string) (e : dict pyval) :
  dict_get FEATURED_MODELS n = Some e ->
  is_lora e ->
  dict_contains MODEL_TO_HASH n /\
  exists b, field_is e "base_model" b /\ dict_contains MODEL_TO_HASH b.
Proof.
  revert n e.
  apply (dict_get_Forall (fun n e =>
    is_lora e ->
    dict_contains MODEL_TO_HASH n /\
    exists b, field_is e "base_model" b /\ dict_contains MODEL_TO_HASH b)).
  exact lora_entries_published.
Qed.

Lemma lora_and_base_published_witness :
  exists e,
    dict_get FEATURED_MODELS "flux-dev-nsfw" = Some e /\
    is_lora e /\
    dict_contains MODEL_TO_HASH "flux-dev-nsfw" /\
    exists b, field_is e "base_model" b /\ dict_contains MODEL_TO_HASH b.
Proof.
  exists [("repo", PStr "NikolaSigmoid/FLUX.1-dev-NSFW-Master");
          ("task", PStr "image-generation");
          ("lora", PBool true);
          ("base_model", PStr "flux-dev");
          ("architecture", PStr "flux-dev");
          ("backend", PStr "mlx-flux")].
  split; [reflexivity|]. split; [reflexivity|].
  apply (lora_and_base_published "flux-dev-nsfw"); reflexivity.
Defined.

Lemma unpublished_names_checked :
  Forall (fun kv =>
    ~ dict_contains MODEL_TO_HASH (fst kv) ->
    In (fst kv)
       ["qwen3-30b-a3b-instruct-2507"; "qwen3-30b-a3b-thinking-2507";
        "qwen3-coder-30b-a3b-instruct"; "gpt-oss-20b-mlx"; "hermes-4-14b";
        "hermes-4-405b"; "flux-krea-dev"]) FEATURED_MODELS.
Proof.
  each_entry FEATURED_MODELS ltac:(
    let H := fresh in
    intros H; first [has_key | exfalso; apply H; has_key]).
Qed.

(** X10: the names of [FEATURED_MODELS] that are not keys of [MODEL_TO_HASH]
    are exactly [qwen3-30b-a3b-instruct-2507], [qwen3-30b-a3b-thinking-2507],
    [qwen3-coder-30b-a3b-instruct], [gpt-oss-20b-mlx], [hermes-4-14b],
    [hermes-4-405b] and [flux-krea-dev]. *)
Theorem unpublished_names (n : string) :
  dict_contains FEATURED_MODELS n /\ ~ dict_contains MODEL_TO_HASH n
  <->
  In n ["qwen3-30b-a3b-instruct-2507"; "qwen3-30b-a3b-thinking-2507";
        "qwen3-coder-30b-a3b-instruct"; "gpt-oss-20b-mlx"; "hermes-4-14b";
        "hermes-4-405b"; "flux-krea-dev"].
Proof.
  split.
  - intros [Hin Hnot]. apply dict_get_contains in Hin. destruct Hin as [e He].
    revert Hnot.
    apply (dict_get_Forall (fun n _ =>
      ~ dict_contains MODEL_TO_HASH n ->
      In n ["qwen3-30b-a3b-instruct-2507"; "qwen3-30b-a3b-thinking-2507";
            "qwen3-coder-30b-a3b-instruct"; "gpt-oss-20b-mlx"; "hermes-4-14b";
            "hermes-4-405b"; "flux-krea-dev"])
      FEATURED_MODELS unpublished_names_checked n e He).
  - intros H. simpl in H.
    repeat (destruct H as [<- | H]; [split; [has_key | no_key]|]).
    contradiction.
Qed.

Lemma unpublished_names_witness :
  In "hermes-4-405b"
     ["qwen3-30b-a3b-instruct-2507"; "qwen3-30b-a3b-thinking-2507";
      "qwen3-coder-30b-a3b-instruct"; "gpt-oss-20b-mlx"; "hermes-4-14b";
      "hermes-4-405b"; "flux-krea-dev"] /\
  dict_contains FEATURED_MODELS "hermes-4-405b" /\
  ~ dict_contains MODEL_TO_HASH "hermes-4-405b".
Proof.
  assert (H : In "hermes-4-405b"
     ["qwen3-30b-a3b-instruct-2507"; "qwen3-30b-a3b-thinking-2507";
      "qwen3-coder-30b-a3b-instruct"; "gpt-oss-20b-mlx"; "hermes-4-14b";
      "hermes-4-405b"; "flux-krea-dev"]) by has_key.
  split; [exact H|].
  exact (proj2 (unpublished_names "hermes-4-405b") H).
Defined.

(** ** Entries and the locations they name *)

Lemma some_values_injective {A B : Type} (g : A -> option B) (l : list A) :
  NoDup (filter (fun o => match o with Some _ => true | None => false end)
                (map g l)) ->
  forall x y b, In x l -> In y l -> g x = Some b -> g y = Some b -> x = y.
Proof.
  induction l as [|a l IH]; simpl; [easy|].
  intros Hnd x y b Hx Hy Gx Gy.
  assert (Hmem : forall z, In z l -> g z = Some b ->
    In (Some b) (filter (fun o => match o with Some _ => true | None => false end)
                        (map g l))).
  { intros z Hz Gz. apply filter_In. split; [|reflexivity].
    rewrite <- Gz. now apply in_map. }
  destruct (g a) as [c|] eqn:Ga.
  - inversion Hnd as [|? ? Hnotin Hnd']; subst.
    destruct Hx as [<-|Hx], Hy as [<-|Hy].
    + reflexivity.
    + exfalso. apply Hnotin. rewrite Ga in Gx. injection Gx as ->. eauto.
    + exfalso. apply Hnotin. rewrite Ga in Gy. injection Gy as ->. eauto.
    + eauto.
  - destruct Hx as [<-|Hx]; [congruence|].
    destruct Hy as [<-|Hy]; [congruence|]. eauto.
Qed.

Lemma field_values_distinct (f : string) :
  nodup pyval_eq_dec
    (filter (fun o => match o with Some _ => true | None => false end)
            (map (fun kv => dict_get (snd kv) f) FEATURED_MODELS))
  = filter (fun o => match o with Some _ => true | None => false end)
           (map (fun kv => dict_get (snd kv) f) FEATURED_MODELS) ->
  forall n1 n2 e1 e2 v,
    dict_get FEATURED_MODELS n1 = Some e1 ->
    dict_get FEATURED_MODELS n2 = Some e2 ->
    dict_get e1 f = Some v -> dict_get e2 f = Some v -> n1 = n2.
Proof.
  intros E n1 n2 e1 e2 v H1 H2 F1 F2.
  apply dict_get_In in H1, H2.
  assert (Heq : (n1, e1) = (n2, e2)).
  { apply (some_values_injective (fun kv => dict_get (snd kv) f)
             FEATURED_MODELS) with (b := v); try assumption.
    rewrite <- E. apply NoDup_nodup. }
  now injection Heq.
Qed.

(** X11: no two entries of [FEATURED_MODELS] name the same [repo], and no
    two name the same [model] file. *)
Theorem repo_and_model_name_one_entry
    (n1 n2 : string) (e1 e2 : dict pyval) (s : string) :
  dict_get FEATURED_MODELS n1 = Some e1 ->
  dict_get FEATURED_MODELS n2 = Some e2 ->
  (field_is e1 "repo" s /\ field_is e2 "repo" s) \/
  (field_is e1 "model" s /\ field_is e2 "model" s) ->
  n1 = n2.
Proof.
  intros H1 H2 [[F1 F2]|[F1 F2]].
  - apply (field_values_distinct "repo") with (4 := F1) (5 := F2);
      [vm_compute; reflexivity | assumption | assumption].
  - apply (field_values_distinct "model") with (4 := F1) (5 := F2);
      [vm_compute; reflexivity | assumption | assumption].
Qed.

Lemma repo_and_model_name_one_entry_witness :
  exists e,
    dict_get FEATURED_MODELS "qwen3-4b" = Some e /\
    field_is e "repo" "Qwen/Qwen3-4B-GGUF" /\
    "qwen3-4b" = "qwen3-4b".
Proof.
  exists [("repo", PStr "Qwen/Qwen3-4B-GGUF");
          ("model", PStr "Qwen3-4B-Q8_0.gguf");
          ("task", PStr "chat");
          ("backend", PStr "gguf")].
  split; [reflexivity|]. split; [reflexivity|].
  apply (repo_and_model_name_one_entry "qwen3-4b" "qwen3-4b"
    [("repo", PStr "Qwen/Qwen3-4B-GGUF");
     ("model", PStr "Qwen3-4B-Q8_0.gguf");
     ("task", PStr "chat");
     ("backend", PStr "gguf")]
    [("repo", PStr "Qwen/Qwen3-4B-GGUF");
     ("model", PStr "Qwen3-4B-Q8_0.gguf");
     ("task", PStr "chat");
     ("backend", PStr "gguf")]
    "Qwen/Qwen3-4B-GGUF");
    [reflexivity | reflexivity | left; split; reflexivity].
Defined.

(** ** The comprehension on an arbitrary table *)

Section LiteralFacts.
Context {V : Type}.
Implicit Types (d : dict V) (k : string) (v : V).

Lemma dict_get_set_eq d k v : dict_get (dict_set d k v) k = Some v.
Proof.
  induction d as [|[k' v'] d IH]; simpl.
  - now rewrite String.eqb_refl.
  - destruct (String.eqb k' k) eqn:E; simpl; now rewrite E.
Qed.

Lemma dict_get_set_neq d k v k0 :
  k <> k0 -> dict_get (dict_set d k v) k0 = dict_get d k0.
Proof.
  intros Hne. induction d as [|[k' v'] d IH]; simpl.
  - apply String.eqb_neq in Hne. now rewrite Hne.
  - destruct (String.eqb k' k) eqn:E; simpl.
    + apply String.eqb_eq in E. subst k'.
      apply String.eqb_neq in Hne. now rewrite Hne.
    + now rewrite IH.
Qed.

Lemma dict_set_In d k v (p : string * V) :
  In p (dict_set d k v) -> p = (k, v) \/ In p d.
Proof.
  induction d as [|[k' v'] d IH]; simpl.
  - intuition congruence.
  - destruct (String.eqb k' k) eqn:E; simpl.
    + apply String.eqb_eq in E. subst k'. intuition congruence.
    + intuition congruence.
Qed.

Lemma dict_set_length d k v :
  length (dict_set d k v) <= S (length d).
Proof.
  induction d as [|[k' v'] d IH]; simpl; [lia|].
  destruct (String.eqb k' k); simpl; lia.
Qed.

(** Every pair held by a dict literal is one of the pairs written. *)
Lemma dict_literal_In (kvs : list (string * V)) (p : string * V) :
  In p (dict_literal kvs) -> In p kvs.
Proof.
  unfold dict_literal.
  assert (G : forall acc,
    In p (fold_left (fun d kv => dict_set d (fst kv) (snd kv)) kvs acc) ->
    In p acc \/ In p kvs).
  { induction kvs as [|[k v] kvs IH]; simpl; intros acc H; [now left|].
    destruct (IH _ H) as [H'|H']; [|now right; right].
    apply dict_set_In in H'. cbn [fst snd] in H'. intuition. }
  intros H. destruct (G [] H) as [[]|H']. exact H'.
Qed.

(** The keys of a dict literal are the keys written. *)
Lemma dict_literal_keys (kvs : list (string * V)) k :
  In k (dict_keys (dict_literal kvs)) <-> In k (map fst kvs).
Proof.
  unfold dict_literal.
  assert (G : forall acc,
    In k (dict_keys (fold_left (fun d kv => dict_set d (fst kv) (snd kv))
                               kvs acc))
    <-> In k (dict_keys acc) \/ In k (map fst kvs)).
  { induction kvs as [|[k' v'] kvs IH]; simpl; intros acc; [tauto|].
    rewrite IH, dict_set_keys. intuition congruence. }
  rewrite G. simpl. tauto.
Qed.

Lemma dict_literal_length (kvs : list (string * V)) :
  length (dict_literal kvs) <= length kvs.
Proof.
  unfold dict_literal.
  assert (G : forall acc,
    length (fold_left (fun d kv => dict_set d (fst kv) (snd kv)) kvs acc)
    <= length acc + length kvs).
  { induction kvs as [|[k v] kvs IH]; simpl; intros acc; [lia|].
    specialize (IH (dict_set acc k v)).
    pose proof (dict_set_length acc k v). lia. }
  apply (G []).
Qed.

(** A key written several times keeps the value written last. *)
Lemma dict_literal_last (l1 l2 : list (string * V)) k v :
  ~ In k (map fst l2) ->
  dict_get (dict_literal (l1 ++ (k, v) :: l2)) k = Some v.
Proof.
  unfold dict_literal. rewrite fold_left_app. simpl.
  generalize (fold_left (fun d kv => dict_set d (fst kv) (snd kv)) l1 []).
  intros acc.
  assert (G : forall acc',
    ~ In k (map fst l2) ->
    dict_get (fold_left (fun d kv => dict_set d (fst kv) (snd kv)) l2 acc') k
    = dict_get acc' k).
  { induction l2 as [|[k' v'] l2 IH]; simpl; intros acc' Hk; [reflexivity|].
    rewrite IH by tauto. apply dict_get_set_neq. tauto. }
  intros Hk. rewrite G by exact Hk. apply dict_get_set_eq.
Qed.
End LiteralFacts.

Lemma swapped_keys (t : dict string) :
  map fst (map (fun '(hash, model) => (model, hash)) (dict_items t))
  = dict_values t.
Proof.
  unfold dict_items, dict_values. rewrite map_map.
  apply map_ext. now intros [h n].
Qed.

Lemma MODEL_TO_HASH_reverse_table : MODEL_TO_HASH = reverse_table HASH_TO_MODEL.
Proof. reflexivity. Qed.

(** X12: for any table [t], the comprehension
    [{model: hash for hash, model in t.items()}] has as keys exactly the
    names that occur as values of [t], and maps each of them to a hash under
    which [t] lists that name. *)
Theorem reverse_table_sound (t : dict string) :
  dict_wf t ->
  (forall n, dict_contains (reverse_table t) n <-> In n (dict_values t)) /\
  (forall n h, dict_get (reverse_table t) n = Some h -> dict_get t h = Some n).
Proof.
  intros Hwf. split.
  - intros n. unfold dict_contains, reverse_table.
    now rewrite dict_literal_keys, swapped_keys.
  - intros n h H. apply dict_get_In, dict_literal_In in H.
    apply in_map_iff in H. destruct H as [[h' n'] [[= -> ->] H]].
    now apply dict_get_of_In.
Qed.

Lemma reverse_table_sound_witness :
  dict_wf HASH_TO_MODEL /\
  (forall n, dict_contains (reverse_table HASH_TO_MODEL) n
             <-> In n (dict_values HASH_TO_MODEL)) /\
  (forall n h, dict_get (reverse_table HASH_TO_MODEL) n = Some h ->
               dict_get HASH_TO_MODEL h = Some n).
Proof.
  split; [exact HASH_TO_MODEL_wf|].
  exact (reverse_table_sound HASH_TO_MODEL HASH_TO_MODEL_wf).
Defined.

(** X13: the comprehension never yields more entries than the table it
    reads, and it yields as many exactly when no name is listed under two
    hashes; a repeated name shrinks the result, no error is raised. *)
Theorem reverse_table_size (t : dict string) :
  length (reverse_table t) <= length t /\
  (length (reverse_table t) = length t <-> NoDup (dict_values t)).
Proof.
  assert (Hlen : length (map (fun '(hash, model) => (model, hash))
                             (dict_items t)) = length t)
    by (unfold dict_items; apply length_map).
  split.
  - rewrite <- Hlen. apply dict_literal_length.
  - split.
    + intros Heq. rewrite <- swapped_keys.
      apply NoDup_incl_NoDup with (l := dict_keys (reverse_table t)).
      * apply dict_literal_wf.
      * unfold dict_keys. rewrite !length_map. unfold dict_items. lia.
      * intros k Hk. now apply dict_literal_keys.
    + intros Hnd. unfold reverse_table.
      rewrite dict_literal_distinct; [exact Hlen|].
      now rewrite swapped_keys.
Qed.

Lemma reverse_table_size_witness :
  NoDup (dict_values HASH_TO_MODEL) /\
  length (reverse_table HASH_TO_MODEL) = length HASH_TO_MODEL.
Proof.
  split; [exact HASH_TO_MODEL_values_distinct|].
  exact (proj2 (proj2 (reverse_table_size HASH_TO_MODEL))
           HASH_TO_MODEL_values_distinct).
Defined.

(** X14: when a name [n] is listed under several hashes of [t], the
    comprehension keeps the hash listed last: if [(h, n)] is followed by no
    other pair with name [n], then [n] is mapped to [h]. *)
Theorem reverse_table_last_wins (t1 t2 : dict string) (h n : string) :
  ~ In n (dict_values t2) ->
  dict_get (reverse_table (t1 ++ (h, n) :: t2)) n = Some h.
Proof.
  intros Hn. unfold reverse_table, dict_items.
  rewrite map_app. simpl.
  apply dict_literal_last.
  intros Hin. apply Hn. rewrite <- swapped_keys. exact Hin.
Qed.

Lemma reverse_table_last_wins_witness :
  ~ In "m" (dict_values [("h3", "k")]) /\
  dict_get (reverse_table ([("h1", "m")] ++ ("h2", "m") :: [("h3", "k")])) "m"
  = Some "h2".
Proof.
  assert (H : ~ In "m" (dict_values [("h3", "k")])).
  { intros H. vm_compute in H. intuition discriminate. }
  split; [exact H|].
  exact (reverse_table_last_wins [("h1", "m")] [("h3", "k")] "h2" "m" H).
Defined.

(** X15: on a table without repeated names the comprehension is an
    involution: reversing the reversed table gives the table back, pair for
    pair and in the same order. *)
Theorem reverse_table_involutive (t : dict string) :
  dict_wf t ->
  NoDup (dict_values t) ->
  reverse_table (reverse_table t) = t.
Proof.
  intros Hwf Hnd.
  assert (E : reverse_table t
              = map (fun '(hash, model) => (model, hash)) (dict_items t)).
  { unfold reverse_table. apply dict_literal_distinct.
    now rewrite swapped_keys. }
  rewrite E. unfold reverse_table, dict_items. rewrite map_map.
  erewrite map_ext; [rewrite map_id|now intros [h n]].
  now apply dict_literal_distinct.
Qed.

Lemma reverse_table_involutive_witness :
  dict_wf HASH_TO_MODEL /\
  NoDup (dict_values HASH_TO_MODEL) /\
  reverse_table (reverse_table HASH_TO_MODEL) = HASH_TO_MODEL.
Proof.
  split; [exact HASH_TO_MODEL_wf|].
  split; [exact HASH_TO_MODEL_values_distinct|].
  exact (reverse_table_involutive HASH_TO_MODEL
           HASH_TO_MODEL_wf HASH_TO_MODEL_values_distinct).
Defined.

(** ** The shape of the hashes *)

Lemma hashes_shape_checked :
  Forall (fun kv =>
    String.length (fst kv) = 59 /\ String.prefix "bafkrei" (fst kv) = true)
    HASH_TO_MODEL.
Proof. each_entry HASH_TO_MODEL ltac:(split; reflexivity). Qed.

(** X16: every key of [HASH_TO_MODEL] is a string of 59 characters that
    starts with [bafkrei]. *)
Theorem hash_shape (h : string) :
  dict_contains HASH_TO_MODEL h ->
  String.length h = 59 /\ String.prefix "bafkrei" h = true.
Proof.
  intros Hin. apply dict_get_contains in Hin. destruct Hin as [n Hn].
  exact (dict_get_Forall (fun h _ =>
    String.length h = 59 /\ String.prefix "bafkrei" h = true)
    HASH_TO_MODEL hashes_shape_checked h n Hn).
Qed.

Lemma hash_shape_witness :
  dict_contains HASH_TO_MODEL
    "bafkreidnd2n2sp3gw6c4iutvgdtupqa4qlpsznpjnwqmsna2ko3uhv4fce" /\
  String.length
    "bafkreidnd2n2sp3gw6c4iutvgdtupqa4qlpsznpjnwqmsna2ko3uhv4fce" = 59 /\
  String.prefix "bafkrei"
    "bafkreidnd2n2sp3gw6c4iutvgdtupqa4qlpsznpjnwqmsna2ko3uhv4fce" = true.
Proof.
  assert (H : dict_contains HASH_TO_MODEL
    "bafkreidnd2n2sp3gw6c4iutvgdtupqa4qlpsznpjnwqmsna2ko3uhv4fce") by has_key.
  split; [exact H|].
  exact (hash_shape _ H).
Defined.
